(** * Configuration headers of the YEmbedded firmware tasks

    The repository's sources are five C preprocessor headers: one
    [config.h] per task (Task 2, its [priority_guardian] sketch, Task 3,
    Task 4) and the display helper [oled_driver.h] of Task 6.  They hold
    no C code, only directives, so the object of study is the text of
    each header and what the C preprocessor makes of it.

    The development has three layers:
    - the headers, embedded line by line as they stand in the source;
    - a line scanner and a macro-table builder that follow the C
      preprocessor on the directives these files use ([#ifndef],
      [#define], [#include], [#endif], both comment forms);
    - the properties of the resulting constants. *)

From Stdlib Require Import String Ascii List ZArith Bool Arith Lia.
Import ListNotations.

Local Open Scope list_scope.
Local Open Scope string_scope.

(** ** The header files *)

(** The double-quote character that delimits C string literals. *)
Definition dq : string := String (ascii_of_nat 34) EmptyString.

Record header : Type := Header {
  path : string;
  text : list string   (* the lines of the file, in order, without line ends *)
}.

Module Src.

(** src/Task2_PriorityGuardian/config.h *)
Definition task2_config_text : list string :=
  [ (*  1 *) "#ifndef CONFIG_H";
    (*  2 *) "#define CONFIG_H";
    (*  3 *) EmptyString;
    (*  4 *) "// WiFi Credentials";
    (*  5 *) "#define WIFI_SSID " ++ dq ++ "vivo V30 Pro" ++ dq;
    (*  6 *) "#define WIFI_PASSWORD " ++ dq ++ "micromax" ++ dq;
    (*  7 *) EmptyString;
    (*  8 *) "// MQTT Broker";
    (*  9 *) "#define MQTT_BROKER " ++ dq ++ "broker.mqttdashboard.com" ++ dq;
    (* 10 *) "#define MQTT_PORT 1883";
    (* 11 *) EmptyString;
    (* 12 *) "// Team Identifiers";
    (* 13 *) "#define TEAM_ID " ++ dq ++ "aniruddhyembedded" ++ dq;
    (* 14 *) "#define REEF_ID " ++ dq ++ "aniruddhyelluriyembedded" ++ dq;
    (* 15 *) EmptyString;
    (* 16 *) "// Hardware Pins (RGB LED)";
    (* 17 *) "#define LED_RED 18";
    (* 18 *) "#define LED_GREEN 19";
    (* 19 *) "#define LED_BLUE 23";
    (* 20 *) "#define BUTTON_PIN 4";
    (* 21 *) EmptyString;
    (* 22 *) "// OLED Display";
    (* 23 *) "#define OLED_SDA 21";
    (* 24 *) "#define OLED_SCL 22";
    (* 25 *) "#define OLED_ADDR 0x3C";
    (* 26 *) EmptyString;
    (* 27 *) "#endif";
    (* 28 *) EmptyString ].

(** src/Task2_PriorityGuardian/priority_guardian/config.h *)
Definition priority_guardian_config_text : list string :=
  [ (*  1 *) "#ifndef CONFIG_H";
    (*  2 *) "#define CONFIG_H";
    (*  3 *) EmptyString;
    (*  4 *) "// WiFi Credentials";
    (*  5 *) "#define WIFI_SSID " ++ dq ++ "vivohotspot" ++ dq;
    (*  6 *) "#define WIFI_PASSWORD " ++ dq ++ "micromax" ++ dq;
    (*  7 *) EmptyString;
    (*  8 *) "// MQTT Broker";
    (*  9 *) "#define MQTT_BROKER " ++ dq ++ "broker.mqttdashboard.com" ++ dq;
    (* 10 *) "#define MQTT_PORT 1883";
    (* 11 *) EmptyString;
    (* 12 *) "// Team Identifiers";
    (* 13 *) "#define TEAM_ID " ++ dq ++ "aniruddhyembedded" ++ dq;
    (* 14 *) "#define REEF_ID " ++ dq ++ "aniruddhyelluriyembedded" ++ dq;
    (* 15 *) EmptyString;
    (* 16 *) "// Hardware Pins";
    (* 17 *) "#define DISTRESS_LED 2  // ESP32 onboard LED";
    (* 18 *) EmptyString;
    (* 19 *) "#endif";
    (* 20 *) EmptyString ].

(** src/Task3_WindowSync/config.h *)
Definition task3_config_text : list string :=
  [ (*  1 *) "#ifndef CONFIG_H";
    (*  2 *) "#define CONFIG_H";
    (*  3 *) EmptyString;
    (*  4 *) "// WiFi Credentials";
    (*  5 *) "#define WIFI_SSID " ++ dq ++ "crn_net" ++ dq;
    (*  6 *) "#define WIFI_PASSWORD " ++ dq ++ "crn_l016" ++ dq;
    (*  7 *) EmptyString;
    (*  8 *) "// MQTT Broker";
    (*  9 *) "#define MQTT_BROKER " ++ dq ++ "broker.mqttdashboard.com" ++ dq;
    (* 10 *) "#define MQTT_PORT 1883";
    (* 11 *) EmptyString;
    (* 12 *) "// Team Identifiers";
    (* 13 *) "#define TEAM_ID " ++ dq ++ "aniruddhyembedded" ++ dq;
    (* 14 *) "#define REEF_ID " ++ dq ++ "aniruddhyelluriyembedded" ++ dq;
    (* 15 *) EmptyString;
    (* 16 *) "// Window Topic from Task 2 - UPDATE THIS WITH YOUR ACTUAL CODE";
    (* 17 *) "#define WINDOW_TOPIC " ++ dq ++ "lkjhgf_window" ++ dq;
    (* 18 *) EmptyString;
    (* 19 *) "// Hardware Pins (Common Anode RGB LED)";
    (* 20 *) "#define LED_RED 18      // Red channel - no window indicator";
    (* 21 *) "#define LED_GREEN 19    // Green channel - button press indicator";
    (* 22 *) "#define LED_BLUE 23     // Blue channel - window open indicator";
    (* 23 *) "#define BUTTON_PIN 4    // Push button";
    (* 24 *) EmptyString;
    (* 25 *) "// OLED Display (optional)";
    (* 26 *) "#define OLED_SDA 21";
    (* 27 *) "#define OLED_SCL 22";
    (* 28 *) "#define OLED_ADDR 0x3C";
    (* 29 *) EmptyString;
    (* 30 *) "#endif";
    (* 31 *) EmptyString ].

(** src/Task4_Steganography/config.h *)
Definition task4_config_text : list string :=
  [ (*  1 *) "#ifndef CONFIG_H";
    (*  2 *) "#define CONFIG_H";
    (*  3 *) EmptyString;
    (*  4 *) "// WiFi Credentials";
    (*  5 *) "#define WIFI_SSID " ++ dq ++ "crn_net" ++ dq;
    (*  6 *) "#define WIFI_PASSWORD " ++ dq ++ "crn_l016" ++ dq;
    (*  7 *) EmptyString;
    (*  8 *) "// MQTT Broker";
    (*  9 *) "#define MQTT_BROKER " ++ dq ++ "broker.mqttdashboard.com" ++ dq;
    (* 10 *) "#define MQTT_PORT 1883";
    (* 11 *) EmptyString;
    (* 12 *) "// Team Identifiers";
    (* 13 *) "#define TEAM_ID " ++ dq ++ "aniruddhyembedded" ++ dq;
    (* 14 *) "#define REEF_ID " ++ dq ++ "aniruddhyelluriyembedded" ++ dq;
    (* 15 *) EmptyString;
    (* 16 *) "// Task 4 specific";
    (* 17 *) "#define CHALLENGE_CODE " ++ dq ++ "lkjhgf" ++ dq ++ "           // From Task 2";
    (* 18 *) "#define REQUEST_TOPIC " ++ dq ++ "kelpsaute/steganography" ++ dq;
    (* 19 *) "#define HIDDEN_MESSAGE " ++ dq ++ "lkjhgf" ++ dq ++ "           // Hidden message from Task 3";
    (* 20 *) EmptyString;
    (* 21 *) "#endif";
    (* 22 *) EmptyString ].

(** src/Task6_Submit/oled_driver.h (its last line has no line end) *)
Definition oled_driver_text : list string :=
  [ (*  1 *) "/*";
    (*  2 *) " * OLED Driver Helper for Task 6";
    (*  3 *) " * Uses Adafruit SSD1306 library";
    (*  4 *) " */";
    (*  5 *) EmptyString;
    (*  6 *) "#ifndef OLED_DRIVER_H";
    (*  7 *) "#define OLED_DRIVER_H";
    (*  8 *) EmptyString;
    (*  9 *) "#include <Wire.h>";
    (* 10 *) "#include <Adafruit_GFX.h>";
    (* 11 *) "#include <Adafruit_SSD1306.h>";
    (* 12 *) EmptyString;
    (* 13 *) "#define SCREEN_WIDTH   128";
    (* 14 *) "#define SCREEN_HEIGHT  64";
    (* 15 *) "#define OLED_RESET     -1";
    (* 16 *) "#define OLED_ADDR      0x3C";
    (* 17 *) "#define I2C_SDA        21";
    (* 18 *) "#define I2C_SCL        22";
    (* 19 *) EmptyString;
    (* 20 *) "#endif" ].
End Src.

Definition task2_config : header :=
  Header "src/Task2_PriorityGuardian/config.h" Src.task2_config_text.
Definition priority_guardian_config : header :=
  Header "src/Task2_PriorityGuardian/priority_guardian/config.h"
         Src.priority_guardian_config_text.
Definition task3_config : header :=
  Header "src/Task3_WindowSync/config.h" Src.task3_config_text.
Definition task4_config : header :=
  Header "src/Task4_Steganography/config.h" Src.task4_config_text.
Definition oled_driver : header :=
  Header "src/Task6_Submit/oled_driver.h" Src.oled_driver_text.

(** The four per-task configuration headers, and all five supplied files. *)
Definition config_headers : list header :=
  [task2_config; priority_guardian_config; task3_config; task4_config].

Definition headers : list header := (config_headers ++ [oled_driver])%list.

(** ** Characters and words *)

Definition code (c : ascii) : nat := nat_of_ascii c.

Definition in_range (lo hi : nat) (c : ascii) : bool :=
  (lo <=? code c)%nat && (code c <=? hi)%nat.

Definition is_space (c : ascii) : bool :=
  (code c =? 32)%nat || (code c =? 9)%nat.
Definition is_digit (c : ascii) : bool := in_range 48 57 c.
Definition is_letter (c : ascii) : bool :=
  in_range 65 90 c || in_range 97 122 c || (code c =? 95)%nat.
Definition is_ident_char (c : ascii) : bool := is_letter c || is_digit c.

Fixpoint skip_spaces (s : string) : string :=
  match s with
  | String c s' => if is_space c then skip_spaces s' else s
  | EmptyString => s
  end.

(** The identifier at the head of [s] and what follows it. *)
Fixpoint take_ident (s : string) : string * string :=
  match s with
  | String c s' =>
      if is_ident_char c
      then let (w, r) := take_ident s' in (String c w, r)
      else (EmptyString, s)
  | EmptyString => (EmptyString, EmptyString)
  end.

Definition is_blank (s : string) : bool :=
  match skip_spaces s with EmptyString => true | _ => false end.

(** [s] without its trailing blanks. *)
Fixpoint trim_right (s : string) : string :=
  match s with
  | String c s' =>
      match trim_right s' with
      | EmptyString => if is_space c then EmptyString else String c EmptyString
      | t => String c t
      end
  | EmptyString => EmptyString
  end.

(** What follows the first occurrence of [pat] in [s], if there is one. *)
Fixpoint after (pat s : string) : option string :=
  if prefix pat s then Some (substring (String.length pat) (String.length s - String.length pat) s)
  else match s with
       | String _ s' => after pat s'
       | EmptyString => None
       end.

(** The replacement text of a macro ends where a [//] comment starts,
    unless the two slashes stand inside a string literal. *)
Fixpoint strip_line_comment (in_string : bool) (s : string) : string :=
  match s with
  | String c s' =>
      if (code c =? 34)%nat then String c (strip_line_comment (negb in_string) s')
      else if negb in_string && prefix "//" s then EmptyString
      else String c (strip_line_comment in_string s')
  | EmptyString => EmptyString
  end.

(** ** Lines *)

Inductive line : Type :=
| LBlank
| LComment
| LIfndef (name : string)
| LDefine (name body : string)      (* an object-like macro *)
| LInclude (target : string)
| LEndif
| LOther.                           (* anything else: C code, other directives *)

(** A directive line, after its [#]. *)
Definition scan_directive (s : string) : line :=
  let (kw, rest) := take_ident (skip_spaces s) in
  if (kw =? "ifndef")%string then
    let (name, tail) := take_ident (skip_spaces rest) in
    if negb (name =? EmptyString)%string && is_blank (strip_line_comment false tail)
    then LIfndef name else LOther
  else if (kw =? "define")%string then
    let (name, tail) := take_ident (skip_spaces rest) in
    if (name =? EmptyString)%string then LOther
    else if prefix "(" tail then LOther        (* a function-like macro *)
    else LDefine name (trim_right (skip_spaces (strip_line_comment false tail)))
  else if (kw =? "include")%string then
    LInclude (trim_right (skip_spaces (strip_line_comment false rest)))
  else if (kw =? "endif")%string then
    if is_blank (strip_line_comment false rest) then LEndif else LOther
  else LOther.

(** One line of text, given whether a block comment is open when the line
    starts; the result says whether one is open when it ends. *)
Definition scan_line (in_block : bool) (s : string) : line * bool :=
  if in_block then
    match after "*/" s with
    | Some r => (if is_blank r then LComment else LOther, false)
    | None => (LComment, true)
    end
  else
    let t := skip_spaces s in
    match t with
    | EmptyString => (LBlank, false)
    | String c r =>
        if prefix "//" t then (LComment, false)
        else if prefix "/*" t then
          match after "*/" (substring 2 (String.length t - 2) t) with
          | Some r' => (if is_blank r' then LComment else LOther, false)
          | None => (LComment, true)
          end
        else if (code c =? 35)%nat then (scan_directive r, false)
        else (LOther, false)
    end.

Fixpoint scan_lines (in_block : bool) (ls : list string) : list line * bool :=
  match ls with
  | [] => ([], in_block)
  | s :: ls' =>
      let (l, b) := scan_line in_block s in
      let (rest, b') := scan_lines b ls' in
      (l :: rest, b')
  end.

Definition scan (h : header) : list line := fst (scan_lines false (text h)).

(** A header is well closed when no block comment is left open at its end. *)
Definition closed (h : header) : bool := negb (snd (scan_lines false (text h))).

(** ** Literals and values *)

Inductive value : Type :=
| VStr (s : string)
| VInt (z : Z).

Definition digit_val (c : ascii) : option Z :=
  if is_digit c then Some (Z.of_nat (code c - 48))
  else if in_range 97 102 c then Some (Z.of_nat (code c - 87))
  else if in_range 65 70 c then Some (Z.of_nat (code c - 55))
  else None.

(** The digits of [s] read in base [base], most significant first, on top
    of the digits already read ([acc]). *)
Fixpoint parse_digits (base acc : Z) (s : string) : option Z :=
  match s with
  | EmptyString => Some acc
  | String c s' =>
      match digit_val c with
      | Some d => if (d <? base)%Z then parse_digits base (base * acc + d) s' else None
      | None => None
      end
  end.

(** A C integer constant without suffix: [0x] hexadecimal, leading [0]
    octal, decimal otherwise. *)
Definition parse_unsigned (s : string) : option Z :=
  match s with
  | EmptyString => None
  | String c r =>
      if prefix "0x" s || prefix "0X" s then
        match substring 2 (String.length s - 2) s with
        | EmptyString => None
        | h => parse_digits 16 0 h
        end
      else if (code c =? 48)%nat then parse_digits 8 0 r
      else if is_digit c then parse_digits 10 0 s
      else None
  end.

(** The characters of a string literal, after its opening quote: they run
    to the closing quote, which ends the text.  Escapes are not read. *)
Fixpoint parse_string_tail (s : string) : option string :=
  match s with
  | EmptyString => None
  | String c s' =>
      if (code c =? 34)%nat then
        match s' with EmptyString => Some EmptyString | _ => None end
      else if (code c =? 92)%nat then None
      else option_map (String c) (parse_string_tail s')
  end.

(** The value of a replacement text.  A literal stands for itself, with
    an optional minus sign before a number; a lone identifier is whatever
    the context [env] binds it to (another macro, a variable of the
    program); any other text has no value here. *)
Definition eval_body (env : string -> option value) (b : string) : option value :=
  match b with
  | EmptyString => None
  | String c r =>
      if (code c =? 34)%nat then option_map VStr (parse_string_tail r)
      else if (code c =? 45)%nat then
        option_map (fun z => VInt (- z)%Z) (parse_unsigned (skip_spaces r))
      else if is_digit c then option_map VInt (parse_unsigned b)
      else if is_letter c then
        match take_ident b with
        | (x, EmptyString) => env x
        | _ => None
        end
      else None
  end.

(** The context that binds nothing: a body has a value in it exactly when
    it is a literal. *)
Definition no_env : string -> option value := fun _ => None.

Definition literal (b : string) : option value := eval_body no_env b.

(** ** The macro table *)

(** Macros in force, latest definition first: name and replacement text. *)
Definition table : Type := list (string * string).

Fixpoint lookup (n : string) (t : table) : option string :=
  match t with
  | [] => None
  | (m, b) :: t' => if (n =? m)%string then Some b else lookup n t'
  end.

(** The preprocessor between two lines: the macros in force, how many
    conditionals are open with their group being read ([depth]) and how
    many are open with their group being skipped ([skip]). *)
Record pp_state : Type := PP {
  macros : table;
  depth : nat;
  skip : nat
}.

Definition pp_init (t : table) : pp_state := PP t 0 0.

Definition step (st : pp_state) (l : line) : pp_state :=
  match l with
  | LIfndef n =>
      match skip st with
      | O => match lookup n (macros st) with
             | Some _ => PP (macros st) (depth st) 1
             | None => PP (macros st) (S (depth st)) 0
             end
      | S k => PP (macros st) (depth st) (S (S k))
      end
  | LEndif =>
      match skip st with
      | O => PP (macros st) (pred (depth st)) 0
      | S k => PP (macros st) (depth st) k
      end
  | LDefine n b =>
      match skip st with
      | O => PP ((n, b) :: macros st) (depth st) 0
      | S _ => st
      end
  | LBlank | LComment | LInclude _ | LOther => st
  end.

Definition run (st : pp_state) (ls : list line) : pp_state := fold_left step ls st.


Definition preprocess (t : table) (h : header) : table :=
  macros (run (pp_init t) (scan h)).

(** ** The constants of a header *)

(** The [#define] directives of a scanned file, in order. *)
Fixpoint defines (ls : list line) : table :=
  match ls with
  | [] => []
  | LDefine n b :: ls' => (n, b) :: defines ls'
  | _ :: ls' => defines ls'
  end.

Definition defined_names (h : header) : list string := map fst (defines (scan h)).

Definition defined_in (h : header) (n : string) : bool :=
  existsb (String.eqb n) (defined_names h).

(** The replacement text and the value of [n] once [h] is read. *)
Definition body_of (h : header) (n : string) : option string :=
  lookup n (preprocess [] h).

Definition value_of (h : header) (n : string) : option value :=
  match body_of h n with
  | Some b => literal b
  | None => None
  end.

(** The constants proper: the macros that stand for a value.  An include
    guard has an empty replacement text and is none. *)
Record constant : Type := Constant {
  cfile : string;
  cname : string;
  cvalue : value
}.

Fixpoint constants_from (p : string) (t : table) : list constant :=
  match t with
  | [] => []
  | (n, b) :: t' =>
      match literal b with
      | Some v => Constant p n v :: constants_from p t'
      | None => constants_from p t'
      end
  end.

Definition constants (h : header) : list constant :=
  constants_from (path h) (defines (scan h)).

Definition all_constants : list constant := flat_map constants headers.

(** ** Names the properties speak of *)

(** The constants every task configuration is expected to carry. *)
Definition common_names : list string :=
  ["WIFI_SSID"; "WIFI_PASSWORD"; "MQTT_BROKER"; "MQTT_PORT"; "TEAM_ID"; "REEF_ID"].

(** The constants that name a pin of the board. *)
Definition pin_names : list string :=
  ["LED_RED"; "LED_GREEN"; "LED_BLUE"; "BUTTON_PIN"; "OLED_SDA"; "OLED_SCL";
   "DISTRESS_LED"; "I2C_SDA"; "I2C_SCL"; "OLED_RESET"].

(** GPIO numbers of the ESP32 run from 0 to 39. *)
Definition gpio_max : Z := 39.
Definition valid_gpio (z : Z) : Prop := (0 <= z <= gpio_max)%Z.

(** ** How values can depend on one another *)

(** [w] occurs in [s]: [s] is [w] with text before and after. *)
Fixpoint occurs_in (w s : string) : bool :=
  prefix w s ||
  match s with
  | String _ s' => occurs_in w s'
  | EmptyString => false
  end.

(** [v] is determined by [w] when it is equal to it, or is a string built
    by concatenation around it. *)
Definition determined_by (v w : value) : Prop :=
  v = w \/ exists s t a b, v = VStr s /\ w = VStr t /\ s = a ++ t ++ b.

Definition determined_byb (v w : value) : bool :=
  match v, w with
  | VInt x, VInt y => (x =? y)%Z
  | VStr s, VStr t => occurs_in t s
  | _, _ => false
  end.

(** The pairs of differently named constants found to be so related. *)
Definition related_names : list (string * string) :=
  [ ("WINDOW_TOPIC", "CHALLENGE_CODE"); ("WINDOW_TOPIC", "HIDDEN_MESSAGE");
    ("CHALLENGE_CODE", "HIDDEN_MESSAGE"); ("HIDDEN_MESSAGE", "CHALLENGE_CODE");
    ("OLED_SDA", "I2C_SDA"); ("I2C_SDA", "OLED_SDA");
    ("OLED_SCL", "I2C_SCL"); ("I2C_SCL", "OLED_SCL") ].

Definition pair_eqb (p q : string * string) : bool :=
  (fst p =? fst q)%string && (snd p =? snd q)%string.

(** ** What a header of constants is made of *)

(** The four directives the headers use. *)
Definition is_directive (l : line) : Prop :=
  (exists n, l = LIfndef n) \/ (exists n b, l = LDefine n b) \/
  (exists t, l = LInclude t) \/ l = LEndif.

(** Blank, comment or directive: anything the scanner does not class as [LOther]. *)
Definition lineb (l : line) : bool :=
  match l with LOther => false | _ => true end.

(** ** Checkers, run on the headers in the proofs below *)

Fixpoint nodupb (l : list string) : bool :=
  match l with
  | [] => true
  | x :: l' => negb (existsb (String.eqb x) l') && nodupb l'
  end.


Definition is_literal (b : string) : bool :=
  match literal b with Some _ => true | None => false end.


Definition option_eqb {A : Type} (eqb : A -> A -> bool) (x y : option A) : bool :=
  match x, y with
  | Some a, Some b => eqb a b
  | None, None => true
  | _, _ => false
  end.

Definition is_wifi_name (n : string) : bool :=
  (n =? "WIFI_SSID")%string || (n =? "WIFI_PASSWORD")%string.

(** Outside the WiFi credentials, what [h] and [g] both define they
    define with the same replacement text. *)
Definition agree (h g : header) : bool :=
  forallb (fun n =>
             implb (defined_in g n && negb (is_wifi_name n))
                   (option_eqb String.eqb (body_of h n) (body_of g n)))
          (defined_names h).

Definition relations_listed : bool :=
  forallb (fun c =>
    forallb (fun d =>
      implb (negb (cname c =? cname d)%string
             && determined_byb (cvalue c) (cvalue d))
            (existsb (pair_eqb (cname c, cname d)) related_names))
      all_constants)
    all_constants.

(** ** Include guards *)

(** Lines that leave the preprocessor as it is, and lines that open or
    close no conditional. *)
Definition idle (l : line) : bool :=
  match l with LBlank | LComment => true | _ => false end.

Definition plain (l : line) : bool :=
  match l with LIfndef _ | LEndif => false | _ => true end.

Fixpoint drop_idle (ls : list line) : list line :=
  match ls with
  | l :: ls' => if idle l then drop_idle ls' else ls
  | [] => []
  end.

(** The lines up to the first conditional directive, and the lines from
    that directive on. *)
Fixpoint guard_body (ls : list line) : list line * list line :=
  match ls with
  | l :: ls' =>
      if plain l then let (b, r) := guard_body ls' in (l :: b, r) else ([], ls)
  | [] => ([], [])
  end.

(** The include guard of a header, when it has the usual form: after
    comments and blank lines an [#ifndef] of the guard, a group with no
    further conditional that defines the guard, the [#endif], and nothing
    but comments and blank lines after it.  The result is the guard and
    the lines of the group. *)
Definition guard_of (h : header) : option (string * list line) :=
  match drop_idle (scan h) with
  | LIfndef g :: rest =>
      match guard_body rest with
      | (body, LEndif :: post) =>
          if forallb idle post && existsb (String.eqb g) (map fst (defines body))
          then Some (g, body) else None
      | _ => None
      end
  | _ => None
  end.

Definition guard_name (h : header) : option string := option_map fst (guard_of h).

(** The guard a file name calls for: the name after the last slash, in
    upper case, with an underscore for whatever is no letter or digit. *)
Fixpoint basename (s : string) : string :=
  match s with
  | EmptyString => EmptyString
  | String _ s' => if occurs_in "/" s then basename s' else s
  end.

Definition guard_char (c : ascii) : ascii :=
  if in_range 97 122 c then ascii_of_nat (code c - 32)
  else if is_ident_char c then c
  else ascii_of_nat 95.

Fixpoint map_string (f : ascii -> ascii) (s : string) : string :=
  match s with
  | EmptyString => EmptyString
  | String c s' => String (f c) (map_string f s')
  end.

Definition guard_for (p : string) : string := map_string guard_char (basename p).

(** Reading [g] after [h], on top of the macros [t]. *)
Definition include_both (t : table) (h g : header) : table :=
  preprocess (preprocess t h) g.

(** ** Further checkers *)

(** What [h] and [g] both define they define with the same text. *)
Definition compatible (h g : header) : bool :=
  forallb (fun nb =>
             match lookup (fst nb) (rev (defines (scan g))) with
             | Some b => (snd nb =? b)%string
             | None => true
             end)
          (defines (scan h)).

Definition value_eqb (v w : value) : bool :=
  match v, w with
  | VStr s, VStr t => (s =? t)%string
  | VInt x, VInt y => (x =? y)%Z
  | _, _ => false
  end.

(** No two pin constants of [h] name the same pin. *)
Definition pins_distinct (h : header) : bool :=
  forallb (fun n =>
    forallb (fun m =>
      implb (negb (n =? m)%string && defined_in h n && defined_in h m)
            (negb (option_eqb value_eqb (value_of h n) (value_of h m))))
      pin_names)
    pin_names.

(** ** Headers of constants, line by line *)

(** A line of a header of constants: blank, a comment, an [#include], the
    [#ifndef] and [#endif] of the include guard, the definition of the
    guard with no replacement text, or the definition of a constant, whose
    replacement text is a literal.  Code, function-like macros, macros
    that stand for code and conditionals other than the guard are none of
    these. *)
Definition constant_lineb (h : header) (l : line) : bool :=
  match l with
  | LBlank | LComment | LInclude _ | LEndif => true
  | LIfndef n => option_eqb String.eqb (guard_name h) (Some n)
  | LDefine n b =>
      ((b =? EmptyString)%string && option_eqb String.eqb (guard_name h) (Some n))
      || is_literal b
  | LOther => false
  end.

(** ** The program around a header *)



(** The header followed by the text of a program that uses it. *)
Definition with_program (h : header) (prog : list string) : header :=
  Header (path h) (text h ++ prog)%list.



(** * Properties *)

(** ** The model at work *)

Example scan_define_with_comment :
  scan_line false "#define LED_RED 18      // Red channel - no window indicator"
  = (LDefine "LED_RED" "18", false).
Proof. reflexivity. Qed.

Example scan_string_with_slash :
  scan_line false ("#define REQUEST_TOPIC " ++ dq ++ "kelpsaute/steganography" ++ dq)
  = (LDefine "REQUEST_TOPIC" (dq ++ "kelpsaute/steganography" ++ dq), false).
Proof. reflexivity. Qed.

Example scan_function_like_macro :
  scan_line false "#define SQUARE(x) ((x) * (x))" = (LOther, false).
Proof. reflexivity. Qed.

Example scan_code_line : scan_line false "void setup() {" = (LOther, false).
Proof. reflexivity. Qed.

Example scan_undef : scan_line false "#undef LED_RED" = (LOther, false).
Proof. reflexivity. Qed.

Example scan_block_comment_opens : scan_line false "/*" = (LComment, true).
Proof. reflexivity. Qed.

Example scan_block_comment_closes : scan_line true " */" = (LComment, false).
Proof. reflexivity. Qed.

Example literal_hex : literal "0x3C" = Some (VInt 60).
Proof. reflexivity. Qed.

Example literal_octal : literal "017" = Some (VInt 15).
Proof. reflexivity. Qed.

Example literal_negative : literal "-1" = Some (VInt (-1)).
Proof. reflexivity. Qed.

Example literal_string : literal (dq ++ "crn_net" ++ dq) = Some (VStr "crn_net").
Proof. reflexivity. Qed.

(** A body that names another macro is no literal: its value follows the
    context. *)
Example identifier_no_literal : literal "OLED_SDA" = None.
Proof. reflexivity. Qed.

Example identifier_follows_env :
  eval_body (fun x => if (x =? "OLED_SDA")%string then Some (VInt 21) else None)
            "OLED_SDA" = Some (VInt 21).
Proof. reflexivity. Qed.

Example expression_no_literal : literal "1 + 2" = None.
Proof. reflexivity. Qed.

(** A second [#define] of a name takes over from the first. *)
Example redefinition_overrides :
  lookup "A" (macros (run (pp_init []) [LDefine "A" "1"; LDefine "A" "2"]))
  = Some "2".
Proof. reflexivity. Qed.

(** With its guard already defined a header adds nothing. *)
Example guard_skips_second_inclusion :
  preprocess (preprocess [] task2_config) task2_config = preprocess [] task2_config.
Proof. vm_compute. reflexivity. Qed.

Example task4_table :
  preprocess [] task4_config =
  [ ("HIDDEN_MESSAGE", dq ++ "lkjhgf" ++ dq);
    ("REQUEST_TOPIC", dq ++ "kelpsaute/steganography" ++ dq);
    ("CHALLENGE_CODE", dq ++ "lkjhgf" ++ dq);
    ("REEF_ID", dq ++ "aniruddhyelluriyembedded" ++ dq);
    ("TEAM_ID", dq ++ "aniruddhyembedded" ++ dq);
    ("MQTT_PORT", "1883");
    ("MQTT_BROKER", dq ++ "broker.mqttdashboard.com" ++ dq);
    ("WIFI_PASSWORD", dq ++ "crn_l016" ++ dq);
    ("WIFI_SSID", dq ++ "crn_net" ++ dq);
    ("CONFIG_H", EmptyString) ].
Proof. vm_compute. reflexivity. Qed.

Example oled_driver_constants :
  map (fun c => (cname c, cvalue c)) (constants oled_driver) =
  [ ("SCREEN_WIDTH", VInt 128); ("SCREEN_HEIGHT", VInt 64);
    ("OLED_RESET", VInt (-1)); ("OLED_ADDR", VInt 60);
    ("I2C_SDA", VInt 21); ("I2C_SCL", VInt 22) ].
Proof. vm_compute. reflexivity. Qed.

(** ** The scanner and the table builder *)

Lemma scan_lines_length (ls : list string) :
  forall b, List.length (fst (scan_lines b ls)) = List.length ls.
Proof.
  induction ls as [|s ls IH]; intro b; simpl; [reflexivity|].
  destruct (scan_line b s) as [l b1].
  specialize (IH b1). destruct (scan_lines b1 ls) as [rest b2].
  simpl in *. now rewrite IH.
Qed.

(** The scanner gives one line for each line of text. *)
Lemma scan_length (h : header) : List.length (scan h) = List.length (text h).
Proof. apply scan_lines_length. Qed.

Lemma defines_app (xs ys : list line) :
  defines (xs ++ ys) = (defines xs ++ defines ys)%list.
Proof.
  induction xs as [|l xs IH]; simpl; [reflexivity|].
  destruct l; simpl; now rewrite ?IH.
Qed.


Lemma run_app (st : pp_state) (xs ys : list line) :
  run st (xs ++ ys) = run (run st xs) ys.
Proof. apply fold_left_app. Qed.





(** ** Literals *)


(** ** Reflection of the checkers *)

Lemma existsb_eqb_In (x : string) (l : list string) :
  existsb (String.eqb x) l = true <-> In x l.
Proof.
  rewrite existsb_exists. split.
  - intros [y [Hy E]]. apply String.eqb_eq in E. now subst.
  - intro H. exists x. split; [assumption | apply String.eqb_refl].
Qed.

Lemma nodupb_NoDup (l : list string) : nodupb l = true -> NoDup l.
Proof.
  induction l as [|x l IH]; simpl; intro H; constructor.
  - apply andb_prop in H as [H _]. intro Hin.
    apply existsb_eqb_In in Hin. rewrite Hin in H. discriminate.
  - apply IH. now apply andb_prop in H as [_ H].
Qed.

Lemma defined_in_In (h : header) (n : string) :
  defined_in h n = true <-> In n (defined_names h).
Proof. apply existsb_eqb_In. Qed.

Lemma prefix_app (w b : string) : prefix w (w ++ b) = true.
Proof.
  induction w as [|c w IH]; simpl; [now destruct b|].
  destruct (ascii_dec c c) as [_|N]; [assumption | now elim N].
Qed.

Lemma occurs_in_prefix (w s : string) : prefix w s = true -> occurs_in w s = true.
Proof. intro H. destruct s; cbn [occurs_in]; rewrite H; reflexivity. Qed.

Lemma occurs_in_app (a w b : string) : occurs_in w (a ++ w ++ b) = true.
Proof.
  induction a as [|c a IH]; simpl.
  - apply occurs_in_prefix, prefix_app.
  - rewrite IH. apply orb_true_r.
Qed.

Lemma determined_byb_complete (v w : value) :
  determined_by v w -> determined_byb v w = true.
Proof.
  intros [->|(s & t & a & b & -> & -> & ->)].
  - destruct w as [s|z]; simpl.
    + replace s with (EmptyString ++ s ++ EmptyString) at 2.
      * apply occurs_in_app.
      * simpl. induction s as [|c s IH]; simpl; [reflexivity | now rewrite IH].
    + apply Z.eqb_refl.
  - apply occurs_in_app.
Qed.

Lemma headers_cases (h : header) :
  In h headers ->
  h = task2_config \/ h = priority_guardian_config \/ h = task3_config \/
  h = task4_config \/ h = oled_driver.
Proof.
  unfold headers, config_headers. simpl. intuition auto.
Qed.

(** Membership in a list written out: try each position in turn. *)
Ltac pick := repeat (first [left; reflexivity | right]).

(** Case analysis on the header a hypothesis [H : In h headers] speaks of. *)
Ltac by_header H :=
  apply headers_cases in H;
  destruct H as [H|[H|[H|[H|H]]]]; rewrite H in *; clear H.

(** ** Which headers carry the common constants *)

(** C1, as stated: each of the five headers defines every one of the six
    common constants.  It fails: [oled_driver.h] has no [WIFI_SSID]. *)
Lemma C1_not_every_header :
  ~ (forall h n, In h headers -> In n common_names -> defined_in h n = true).
Proof.
  intro H.
  assert (E : defined_in oled_driver "WIFI_SSID" = true).
  { apply H; [unfold headers; apply in_or_app; right | ]; simpl; auto. }
  vm_compute in E. discriminate.
Qed.

(** C1, amended: a header defines a common constant (the WiFi
    credentials, the MQTT broker and port, the team and reef identifiers)
    exactly when it is one of the four task configuration headers; the
    display helper [oled_driver.h] defines none of them. *)
Theorem C1_common_constants (h : header) (n : string) :
  In h headers -> In n common_names ->
  (defined_in h n = true <-> In h config_headers).
Proof.
  intros Hh Hn. by_header Hh;
    simpl in Hn; repeat (destruct Hn as [<-|Hn]); try contradiction.
  all: try (split; [intros _; simpl; auto 6 | intros _; vm_compute; reflexivity]).
  all: split; [vm_compute; discriminate|].
  all: simpl; intros [E|[E|[E|[E|[]]]]];
       apply (f_equal path) in E; vm_compute in E; discriminate.
Qed.

Lemma C1_common_constants_witness :
  defined_in task3_config "MQTT_PORT" = true <-> In task3_config config_headers.
Proof.
  apply (C1_common_constants task3_config "MQTT_PORT").
  - unfold headers. apply in_or_app. left. simpl. auto.
  - simpl. auto.
Defined.

(** ** Each name is defined once *)

Lemma nodup_defined_names (h : header) : In h headers -> NoDup (defined_names h).
Proof.
  intro Hh. apply nodupb_NoDup. by_header Hh; vm_compute; reflexivity.
Qed.

(** C4: within each header, no macro name appears in two [#define]
    directives: a name the header defines is the name of exactly one of
    them. *)
Theorem C4_defined_once (h : header) (n : string) :
  In h headers -> In n (defined_names h) ->
  count_occ string_dec (defined_names h) n = 1.
Proof.
  intros Hh Hn.
  apply (proj1 (NoDup_count_occ' string_dec (defined_names h))); [|assumption].
  now apply nodup_defined_names.
Qed.

Lemma C4_defined_once_witness :
  count_occ string_dec (defined_names task2_config) "CONFIG_H" = 1.
Proof.
  apply (C4_defined_once task2_config "CONFIG_H").
  - unfold headers. apply in_or_app. left. simpl. auto.
  - vm_compute. auto.
Defined.

(** ** The display address *)

(** C5: wherever [OLED_ADDR] is defined, its replacement text is the
    hexadecimal constant [0x3C], whose value is 60, the I2C address of the
    SSD1306 display. *)
Theorem C5_oled_addr (h : header) :
  In h headers -> defined_in h "OLED_ADDR" = true ->
  body_of h "OLED_ADDR" = Some "0x3C" /\
  value_of h "OLED_ADDR" = Some (VInt 0x3C).
Proof.
  intros Hh Hd. by_header Hh; vm_compute in Hd; try discriminate;
    split; vm_compute; reflexivity.
Qed.

Lemma C5_oled_addr_witness :
  body_of oled_driver "OLED_ADDR" = Some "0x3C" /\
  value_of oled_driver "OLED_ADDR" = Some (VInt 60).
Proof.
  apply (C5_oled_addr oled_driver).
  - unfold headers. apply in_or_app. right. simpl. auto.
  - vm_compute. reflexivity.
Defined.

(** ** Nothing but directives *)

Lemma lineb_sound (l : line) :
  lineb l = true -> l = LBlank \/ l = LComment \/ is_directive l.
Proof.
  unfold is_directive. destruct l; simpl; intro H; try discriminate; eauto 8.
Qed.

(** ** Pin numbers *)

(** C3, as stated: every pin constant is a GPIO number between 0 and 39.
    It fails at [OLED_RESET], which [oled_driver.h] sets to -1. *)
Lemma C3_oled_reset_out_of_range :
  ~ (forall h n z, In h headers -> In n pin_names ->
       value_of h n = Some (VInt z) -> valid_gpio z).
Proof.
  intro H.
  assert (R : valid_gpio (-1)).
  { apply (H oled_driver "OLED_RESET").
    - unfold headers. apply in_or_app. right. simpl. auto.
    - simpl. auto 12.
    - vm_compute. reflexivity. }
  unfold valid_gpio in R. lia.
Qed.

(** C3, amended: every pin constant a header defines is an integer; all
    but [OLED_RESET] lie in the GPIO range 0..39 of the ESP32, and
    [OLED_RESET] is -1, the display driver's mark for a display with no
    reset line. *)
Theorem C3_pins (h : header) (n : string) :
  In h headers -> In n pin_names -> defined_in h n = true ->
  exists z, value_of h n = Some (VInt z) /\
            (n <> "OLED_RESET" -> valid_gpio z) /\
            (n = "OLED_RESET" -> z = (-1)%Z).
Proof.
  intros Hh Hn Hd. by_header Hh;
    simpl in Hn; repeat (destruct Hn as [<-|Hn]); try contradiction;
    vm_compute in Hd; try discriminate;
    (eexists; split; [vm_compute; reflexivity|]);
    (split; [intro N | intro E]);
    try (unfold valid_gpio, gpio_max; lia);
    try discriminate; try reflexivity; now elim N.
Qed.

Lemma C3_pins_witness :
  exists z, value_of priority_guardian_config "DISTRESS_LED" = Some (VInt z) /\
            ("DISTRESS_LED" <> "OLED_RESET" -> valid_gpio z) /\
            ("DISTRESS_LED" = "OLED_RESET" -> z = (-1)%Z).
Proof.
  apply (C3_pins priority_guardian_config "DISTRESS_LED").
  - unfold headers. apply in_or_app. left. simpl. auto.
  - simpl. auto 12.
  - vm_compute. reflexivity.
Defined.

(** ** Agreement between the headers *)

Lemma agree_all (h g : header) : In h headers -> In g headers -> agree h g = true.
Proof.
  intros Hh Hg. by_header Hh; by_header Hg; vm_compute; reflexivity.
Qed.

Lemma option_eqb_string (x y : option string) :
  option_eqb String.eqb x y = true -> x = y.
Proof.
  destruct x, y; simpl; intro H; try discriminate; [|reflexivity].
  apply String.eqb_eq in H. now subst.
Qed.

(** C8: a name defined in several headers, the WiFi credentials aside,
    has the same replacement text and so the same value in each of them;
    and in the four configuration headers the broker is
    broker.mqttdashboard.com, the port 1883, and the team and reef
    identifiers are the same two strings. *)
Theorem C8_shared_constants_agree :
  (forall h g n,
      In h headers -> In g headers ->
      n <> "WIFI_SSID" -> n <> "WIFI_PASSWORD" ->
      defined_in h n = true -> defined_in g n = true ->
      body_of h n = body_of g n /\ value_of h n = value_of g n) /\
  (forall h,
      In h config_headers ->
      value_of h "MQTT_BROKER" = Some (VStr "broker.mqttdashboard.com") /\
      value_of h "MQTT_PORT" = Some (VInt 1883) /\
      value_of h "TEAM_ID" = Some (VStr "aniruddhyembedded") /\
      value_of h "REEF_ID" = Some (VStr "aniruddhyelluriyembedded")).
Proof.
  split.
  - intros h g n Hh Hg Ns Np Dh Dg.
    assert (B : body_of h n = body_of g n).
    { pose proof (agree_all h g Hh Hg) as A. unfold agree in A.
      rewrite forallb_forall in A.
      specialize (A n (proj1 (defined_in_In h n) Dh)).
      rewrite Dg in A. unfold is_wifi_name in A.
      apply String.eqb_neq in Ns, Np. rewrite Ns, Np in A. simpl in A.
      now apply option_eqb_string. }
    split; [assumption|]. unfold value_of. now rewrite B.
  - intros h Hh. simpl in Hh.
    destruct Hh as [<-|[<-|[<-|[<-|[]]]]]; repeat split; vm_compute; reflexivity.
Qed.

Lemma C8_shared_constants_agree_witness :
  (body_of task2_config "OLED_ADDR" = body_of oled_driver "OLED_ADDR" /\
   value_of task2_config "OLED_ADDR" = value_of oled_driver "OLED_ADDR") /\
  value_of task4_config "MQTT_PORT" = Some (VInt 1883).
Proof.
  split.
  - apply (proj1 C8_shared_constants_agree task2_config oled_driver "OLED_ADDR").
    + unfold headers. apply in_or_app. left. simpl. auto.
    + unfold headers. apply in_or_app. right. simpl. auto.
    + discriminate.
    + discriminate.
    + vm_compute. reflexivity.
    + vm_compute. reflexivity.
  - apply (proj2 C8_shared_constants_agree task4_config). simpl. auto.
Defined.

(** ** Relations between the values *)

Lemma relations_listed_true : relations_listed = true.
Proof. vm_compute. reflexivity. Qed.

Lemma constant_of_header (h : header) (c : constant) :
  In h headers -> In c (constants h) -> In c all_constants.
Proof. intros Hh Hc. apply in_flat_map. now exists h. Qed.

(** C2, as stated: no constant's value is equal to, or a concatenation
    around, the value of a constant of another name.  It fails: the Task 3
    topic is the Task 4 challenge code followed by [_window]. *)
Lemma C2_values_are_related :
  ~ (forall c d, In c all_constants -> In d all_constants ->
       cname c <> cname d -> ~ determined_by (cvalue c) (cvalue d)).
Proof.
  intro H.
  apply (H (Constant (path task3_config) "WINDOW_TOPIC" (VStr "lkjhgf_window"))
           (Constant (path task4_config) "CHALLENGE_CODE" (VStr "lkjhgf"))).
  - apply (constant_of_header task3_config).
    + unfold headers. apply in_or_app. left. simpl. auto.
    + vm_compute. pick.
  - apply (constant_of_header task4_config).
    + unfold headers. apply in_or_app. left. simpl. auto.
    + vm_compute. pick.
  - simpl. discriminate.
  - right. exists "lkjhgf_window", "lkjhgf", EmptyString, "_window".
    repeat split.
Qed.

(** C2, amended: the values are related in exactly these ways.  The
    window topic of Task 3 is the challenge code of Task 4 followed by
    [_window]; the hidden message of Task 4 equals the challenge code; the
    display bus pins of Task 6 equal those of Tasks 2 and 3 (SDA 21,
    SCL 22).  No other two constants of different names have equal values
    or a string value that contains the other's. *)
Theorem C2_value_relations :
  (exists code,
      value_of task4_config "CHALLENGE_CODE" = Some (VStr code) /\
      value_of task3_config "WINDOW_TOPIC" = Some (VStr (code ++ "_window")) /\
      value_of task4_config "HIDDEN_MESSAGE" = Some (VStr code)) /\
  (value_of oled_driver "I2C_SDA" = value_of task2_config "OLED_SDA" /\
   value_of oled_driver "I2C_SDA" = value_of task3_config "OLED_SDA" /\
   value_of oled_driver "I2C_SCL" = value_of task2_config "OLED_SCL" /\
   value_of oled_driver "I2C_SCL" = value_of task3_config "OLED_SCL") /\
  (forall c d,
      In c all_constants -> In d all_constants ->
      cname c <> cname d -> determined_by (cvalue c) (cvalue d) ->
      In (cname c, cname d) related_names).
Proof.
  split; [|split].
  - exists "lkjhgf". repeat split; vm_compute; reflexivity.
  - repeat split; vm_compute; reflexivity.
  - intros c d Hc Hd Hn Hr.
    pose proof relations_listed_true as A. unfold relations_listed in A.
    rewrite forallb_forall in A. specialize (A c Hc).
    rewrite forallb_forall in A. specialize (A d Hd).
    apply String.eqb_neq in Hn. rewrite Hn in A.
    rewrite (determined_byb_complete _ _ Hr) in A. cbn [negb andb implb] in A.
    apply existsb_exists in A as [[x y] [Hin E]].
    unfold pair_eqb in E. simpl in E. apply andb_prop in E as [E1 E2].
    apply String.eqb_eq in E1, E2. now subst.
Qed.

Lemma C2_value_relations_witness :
  In ("HIDDEN_MESSAGE", "CHALLENGE_CODE") related_names.
Proof.
  apply (proj2 (proj2 C2_value_relations)
           (Constant (path task4_config) "HIDDEN_MESSAGE" (VStr "lkjhgf"))
           (Constant (path task4_config) "CHALLENGE_CODE" (VStr "lkjhgf"))).
  - apply (constant_of_header task4_config).
    + unfold headers. apply in_or_app. left. simpl. auto.
    + vm_compute. pick.
  - apply (constant_of_header task4_config).
    + unfold headers. apply in_or_app. left. simpl. auto.
    + vm_compute. pick.
  - simpl. discriminate.
  - left. reflexivity.
Defined.

(** ** Values are fixed once defined *)





(** ** Include guards at work *)

Lemma run_idle (ls : list line) :
  forall st, forallb idle ls = true -> run st ls = st.
Proof.
  induction ls as [|l ls IH]; intros st H; [reflexivity|].
  simpl in H. apply andb_prop in H as [Hl H].
  simpl. destruct l; try discriminate; now apply IH.
Qed.

Lemma defines_idle (ls : list line) : forallb idle ls = true -> defines ls = [].
Proof.
  induction ls as [|l ls IH]; intro H; [reflexivity|].
  simpl in H. apply andb_prop in H as [Hl H].
  destruct l; try discriminate; now apply IH.
Qed.

Lemma drop_idle_split (ls : list line) :
  exists pre, ls = (pre ++ drop_idle ls)%list /\ forallb idle pre = true.
Proof.
  induction ls as [|l ls (pre & E & Hpre)]; [now exists []|].
  simpl. destruct (idle l) eqn:Hl.
  - exists (l :: pre). simpl. rewrite Hl, Hpre. now rewrite <- E.
  - now exists [].
Qed.

Lemma guard_body_split (ls : list line) :
  forall b r, guard_body ls = (b, r) ->
              ls = (b ++ r)%list /\ forallb plain b = true.
Proof.
  induction ls as [|l ls IH]; simpl; intros b r E.
  - injection E as <- <-. now split.
  - destruct (plain l) eqn:Hl.
    + destruct (guard_body ls) as [b' r'] eqn:E'.
      injection E as <- <-. destruct (IH b' r' eq_refl) as [-> Hb].
      simpl. now rewrite Hl.
    + injection E as <- <-. now split.
Qed.

(** A group with no conditional in it is read whole or skipped whole. *)
Lemma run_plain (ls : list line) :
  forall st, forallb plain ls = true ->
    run st ls =
    PP (match skip st with
        | O => rev (defines ls) ++ macros st
        | S _ => macros st
        end)%list (depth st) (skip st).
Proof.
  induction ls as [|l ls IH]; intros st H.
  - simpl. destruct st as [m d [|s]]; reflexivity.
  - simpl in H. apply andb_prop in H as [Hl H].
    simpl. rewrite (IH _ H).
    destruct l; try discriminate; simpl; try reflexivity.
    destruct (skip st) eqn:Hs; simpl; [|now rewrite Hs].
    now rewrite <- app_assoc.
Qed.

Lemma lookup_app (n : string) (a t : table) :
  lookup n (a ++ t)%list =
  match lookup n a with Some b => Some b | None => lookup n t end.
Proof.
  induction a as [|[m b] a IH]; simpl; [reflexivity|].
  now destruct (n =? m)%string.
Qed.

Lemma lookup_None (n : string) (a : table) :
  lookup n a = None <-> ~ In n (map fst a).
Proof.
  induction a as [|[m b] a IH]; simpl; [tauto|].
  destruct (String.eqb_spec n m) as [->|N].
  - split; [discriminate | intro H; elim H; now left].
  - rewrite IH. split; [intros H [E|H']; [now elim N | auto] | auto].
Qed.

Lemma lookup_In (n b : string) (a : table) :
  lookup n a = Some b -> In (n, b) a.
Proof.
  induction a as [|[m c] a IH]; simpl; [discriminate|].
  destruct (String.eqb_spec n m) as [->|_]; [|auto].
  intro E. injection E as ->. now left.
Qed.

Lemma lookup_NoDup (n b : string) (a : table) :
  NoDup (map fst a) -> In (n, b) a -> lookup n a = Some b.
Proof.
  induction a as [|[m c] a IH]; simpl; [tauto|].
  intros Hnd [E|Hin].
  - injection E as -> ->. now rewrite String.eqb_refl.
  - inversion Hnd as [|? ? Hm Hnd']; subst.
    destruct (String.eqb_spec n m) as [->|_]; [|auto].
    elim Hm. apply (in_map fst) in Hin. assumption.
Qed.

(** What a header with an include guard does to the macros in force: it
    adds all its definitions, or none when the guard is defined already;
    either way it leaves no conditional open. *)
Lemma guarded_run (h : header) (g : string) (body : list line) :
  guard_of h = Some (g, body) ->
  forall t,
    run (pp_init t) (scan h) =
    PP (match lookup g t with
        | Some _ => t
        | None => rev (defines (scan h)) ++ t
        end)%list 0 0.
Proof.
  unfold guard_of. intros G t.
  destruct (drop_idle_split (scan h)) as (pre & E & Hpre).
  destruct (drop_idle (scan h)) as [|[| |g'| | | |] rest]; try discriminate.
  destruct (guard_body rest) as [b r] eqn:Eb.
  destruct r as [|[| | | | | |] post]; try discriminate.
  destruct (forallb idle post) eqn:Hpost; [|discriminate].
  destruct (existsb (String.eqb g') (map fst (defines b))); [|discriminate].
  injection G as -> ->.
  apply guard_body_split in Eb as [-> Hb].
  rewrite E, !defines_app, (defines_idle pre Hpre). simpl.
  rewrite defines_app. simpl. rewrite (defines_idle post Hpost), app_nil_r.
  rewrite run_app, (run_idle pre _ Hpre). simpl.
  rewrite run_app, (run_plain body _ Hb). simpl.
  destruct (lookup g t); simpl; now rewrite (run_idle post _ Hpost).
Qed.

Lemma guarded_defines_guard (h : header) (g : string) (body : list line) :
  guard_of h = Some (g, body) -> In g (defined_names h).
Proof.
  unfold guard_of, defined_names. intro G.
  destruct (drop_idle_split (scan h)) as (pre & E & Hpre).
  destruct (drop_idle (scan h)) as [|[| |g'| | | |] rest]; try discriminate.
  destruct (guard_body rest) as [b r] eqn:Eb.
  destruct r as [|[| | | | | |] post]; try discriminate.
  destruct (forallb idle post); [|discriminate].
  destruct (existsb (String.eqb g') (map fst (defines b))) eqn:Hg; [|discriminate].
  injection G as -> ->.
  apply guard_body_split in Eb as [-> _].
  apply existsb_eqb_In in Hg.
  rewrite E, !defines_app, !map_app. simpl. rewrite defines_app, map_app.
  apply in_or_app. right. apply in_or_app. now left.
Qed.

Lemma guarded_preprocess (h : header) (g : string) (body : list line) :
  guard_of h = Some (g, body) ->
  forall t,
    preprocess t h =
    match lookup g t with
    | Some _ => t
    | None => (rev (defines (scan h)) ++ t)%list
    end.
Proof. intros G t. unfold preprocess. now rewrite (guarded_run h g body G). Qed.

Lemma headers_guarded (h : header) :
  In h headers -> exists g body, guard_of h = Some (g, body).
Proof. intro Hh. by_header Hh; vm_compute; eauto. Qed.

Lemma guard_name_of (h : header) (g : string) :
  guard_name h = Some g -> exists body, guard_of h = Some (g, body).
Proof.
  unfold guard_name. destruct (guard_of h) as [[g' body]|]; [|discriminate].
  simpl. intro E. injection E as ->. now exists body.
Qed.

Lemma config_guard (h : header) :
  In h config_headers -> exists body, guard_of h = Some ("CONFIG_H", body).
Proof.
  simpl. intros [<-|[<-|[<-|[<-|[]]]]]; eexists; vm_compute; reflexivity.
Qed.

Lemma oled_driver_guard :
  exists body, guard_of oled_driver = Some ("OLED_DRIVER_H", body).
Proof. eexists. vm_compute. reflexivity. Qed.

(** A header whose guard an earlier header has defined is skipped whole. *)
Lemma same_guard_skips (h k : header) (g : string) (bh bk : list line) :
  guard_of h = Some (g, bh) -> guard_of k = Some (g, bk) ->
  forall t, preprocess (preprocess t h) k = preprocess t h.
Proof.
  intros Gh Gk t.
  rewrite (guarded_preprocess h g bh Gh t).
  destruct (lookup g t) as [b|] eqn:E.
  - now rewrite (guarded_preprocess k g bk Gk t), E.
  - rewrite (guarded_preprocess k g bk Gk), lookup_app.
    destruct (lookup g (rev (defines (scan h)))) eqn:L; [reflexivity|].
    apply lookup_None in L. elim L.
    rewrite map_rev, <- in_rev. exact (guarded_defines_guard h g bh Gh).
Qed.

Lemma compatible_sound (h k : header) (n x y : string) :
  compatible h k = true ->
  lookup n (rev (defines (scan h))) = Some x ->
  lookup n (rev (defines (scan k))) = Some y -> x = y.
Proof.
  unfold compatible. intros C Hx Hy. rewrite forallb_forall in C.
  apply lookup_In, in_rev in Hx. specialize (C (n, x) Hx). simpl in C.
  rewrite Hy in C. now apply String.eqb_eq in C.
Qed.

Lemma value_eqb_eq (v w : value) : value_eqb v w = true <-> v = w.
Proof.
  destruct v as [s|x], w as [t|y]; simpl; split; intro H; try discriminate.
  - apply String.eqb_eq in H. now subst.
  - injection H as ->. apply String.eqb_refl.
  - apply Z.eqb_eq in H. now subst.
  - injection H as ->. apply Z.eqb_refl.
Qed.

(** X1: what a header does to the macros in force before it.  Each of the
    five headers has an include guard; read on top of any macros [t], it
    adds every one of its definitions, latest first, or, when its guard is
    defined in [t], adds none; and it ends with no conditional left open.
    (The macros of the libraries [oled_driver.h] includes are not
    counted.) *)
Theorem X1_header_effect (h : header) (t : table) :
  In h headers ->
  exists g,
    guard_name h = Some g /\
    run (pp_init t) (scan h) =
    PP (match lookup g t with
        | Some _ => t
        | None => rev (defines (scan h)) ++ t
        end)%list 0 0.
Proof.
  intro Hh. destruct (headers_guarded h Hh) as (g & body & G).
  exists g. split.
  - unfold guard_name. now rewrite G.
  - now apply (guarded_run h g body).
Qed.

Lemma X1_header_effect_witness :
  exists g,
    guard_name task4_config = Some g /\
    run (pp_init [("LED_RED", "5")]) (scan task4_config) =
    PP (match lookup g [("LED_RED", "5")] with
        | Some _ => [("LED_RED", "5")]
        | None => rev (defines (scan task4_config)) ++ [("LED_RED", "5")]
        end)%list 0 0.
Proof.
  apply (X1_header_effect task4_config [("LED_RED", "5")]).
  unfold headers. apply in_or_app. left. simpl. auto.
Defined.

(** X2: the include guards work.  Reading a header a second time, after
    whatever macros were in force the first time, changes nothing. *)
Theorem X2_include_twice (h : header) (t : table) :
  In h headers -> include_both t h h = preprocess t h.
Proof.
  intro Hh. destruct (headers_guarded h Hh) as (g & body & G).
  now apply (same_guard_skips h h g body body).
Qed.

Lemma X2_include_twice_witness :
  include_both [] oled_driver oled_driver = preprocess [] oled_driver.
Proof.
  apply (X2_include_twice oled_driver []).
  unfold headers. apply in_or_app. right. simpl. auto.
Defined.

(** X3: the four configuration headers share the guard [CONFIG_H], so
    they shut one another out: where one of them has been read, a second
    one, of whichever task, is skipped whole and none of its constants
    comes into force. *)
Theorem X3_config_headers_exclusive (h k : header) (t : table) :
  In h config_headers -> In k config_headers ->
  include_both t h k = preprocess t h.
Proof.
  intros Hh Hk.
  destruct (config_guard h Hh) as [bh Gh], (config_guard k Hk) as [bk Gk].
  now apply (same_guard_skips h k "CONFIG_H" bh bk).
Qed.

Lemma X3_config_headers_exclusive_witness :
  include_both [] task2_config task3_config = preprocess [] task2_config.
Proof.
  apply (X3_config_headers_exclusive task2_config task3_config []);
    simpl; auto.
Defined.

(** X4: [oled_driver.h] goes with every configuration header, in either
    order: whatever macros were in force before, a name has the same
    replacement text after the two headers whichever was read first.  The
    one name both define, [OLED_ADDR], has the same text in both. *)
Theorem X4_oled_driver_commutes (h : header) (t : table) (n : string) :
  In h config_headers ->
  lookup n (include_both t h oled_driver) = lookup n (include_both t oled_driver h).
Proof.
  intro Hh. unfold include_both.
  destruct (config_guard h Hh) as [bh Gh], oled_driver_guard as [bo Go].
  assert (Nh : lookup "CONFIG_H" (rev (defines (scan oled_driver))) = None)
    by (vm_compute; reflexivity).
  assert (No : lookup "OLED_DRIVER_H" (rev (defines (scan h))) = None).
  { simpl in Hh. destruct Hh as [<-|[<-|[<-|[<-|[]]]]]; vm_compute; reflexivity. }
  assert (C : compatible h oled_driver = true).
  { simpl in Hh. destruct Hh as [<-|[<-|[<-|[<-|[]]]]]; vm_compute; reflexivity. }
  rewrite (guarded_preprocess h _ bh Gh t), (guarded_preprocess oled_driver _ bo Go t).
  destruct (lookup "CONFIG_H" t) eqn:Eh, (lookup "OLED_DRIVER_H" t) eqn:Eo.
  - now rewrite (guarded_preprocess h _ bh Gh t), Eh,
                (guarded_preprocess oled_driver _ bo Go t), Eo.
  - rewrite (guarded_preprocess oled_driver _ bo Go t), Eo.
    now rewrite (guarded_preprocess h _ bh Gh), (lookup_app "CONFIG_H"), Nh, Eh.
  - rewrite (guarded_preprocess h _ bh Gh t), Eh.
    now rewrite (guarded_preprocess oled_driver _ bo Go),
                (lookup_app "OLED_DRIVER_H"), No, Eo.
  - rewrite (guarded_preprocess oled_driver _ bo Go),
            (lookup_app "OLED_DRIVER_H"), No, Eo.
    rewrite (guarded_preprocess h _ bh Gh), (lookup_app "CONFIG_H"), Nh, Eh.
    rewrite !lookup_app.
    destruct (lookup n (rev (defines (scan oled_driver)))) as [y|] eqn:Ly,
             (lookup n (rev (defines (scan h)))) as [x|] eqn:Lx; try reflexivity.
    now rewrite (compatible_sound h oled_driver n x y C Lx Ly).
Qed.

Lemma X4_oled_driver_commutes_witness :
  lookup "OLED_ADDR" (include_both [] task3_config oled_driver) =
  lookup "OLED_ADDR" (include_both [] oled_driver task3_config).
Proof.
  apply (X4_oled_driver_commutes task3_config [] "OLED_ADDR"). simpl. auto.
Defined.

(** ** What a header brings into force *)

(** X5: a header touches the macros it defines and no other.  Read on
    top of any macros [t], it leaves every name it does not define as [t]
    had it; and unless its guard is defined in [t], each of its
    definitions is in force afterwards with the text the header gives it,
    whatever [t] held for that name. *)
Theorem X5_header_brings_its_constants (h : header) (t : table) :
  In h headers ->
  (forall n, ~ In n (defined_names h) ->
             lookup n (preprocess t h) = lookup n t) /\
  (forall g n b, guard_name h = Some g -> lookup g t = None ->
                 In (n, b) (defines (scan h)) ->
                 lookup n (preprocess t h) = Some b).
Proof.
  intro Hh. split.
  - intros n Hn. destruct (headers_guarded h Hh) as (g & body & G).
    rewrite (guarded_preprocess h g body G).
    destruct (lookup g t); [reflexivity|].
    rewrite lookup_app.
    replace (lookup n (rev (defines (scan h)))) with (@None string); [reflexivity|].
    symmetry. apply lookup_None. now rewrite map_rev, <- in_rev.
  - intros g n b Hg Ht Hin. destruct (guard_name_of h g Hg) as [body G].
    rewrite (guarded_preprocess h g body G), Ht, lookup_app.
    rewrite (lookup_NoDup n b); [reflexivity | | now apply in_rev in Hin].
    rewrite map_rev. apply NoDup_rev. now apply nodup_defined_names.
Qed.

Lemma X5_header_brings_its_constants_witness :
  lookup "LED_RED" (preprocess [("MQTT_PORT", "8883")] task3_config) = Some "18" /\
  lookup "MQTT_PORT" (preprocess [("MQTT_PORT", "8883")] task3_config) = Some "1883" /\
  lookup "MQTT_PORT" (preprocess [("MQTT_PORT", "8883")] oled_driver) = Some "8883".
Proof.
  assert (H3 : In task3_config headers)
    by (unfold headers; apply in_or_app; left; simpl; auto).
  assert (Ho : In oled_driver headers)
    by (unfold headers; apply in_or_app; right; simpl; auto).
  split; [|split].
  - apply (proj2 (X5_header_brings_its_constants task3_config _ H3) "CONFIG_H");
      [vm_compute; reflexivity | vm_compute; reflexivity | vm_compute; pick].
  - apply (proj2 (X5_header_brings_its_constants task3_config _ H3) "CONFIG_H");
      [vm_compute; reflexivity | vm_compute; reflexivity | vm_compute; pick].
  - apply (proj1 (X5_header_brings_its_constants oled_driver
                    [("MQTT_PORT", "8883")] Ho) "MQTT_PORT").
    vm_compute. intuition discriminate.
Defined.

(** X6: within a header no two pin constants name the same pin: two
    different pin names that a header defines have different numbers. *)
Theorem X6_pins_distinct (h : header) (n m : string) :
  In h headers -> In n pin_names -> In m pin_names -> n <> m ->
  defined_in h n = true -> defined_in h m = true ->
  value_of h n <> value_of h m.
Proof.
  intros Hh Hn Hm Hnm Dn Dm E.
  assert (P : pins_distinct h = true) by (by_header Hh; vm_compute; reflexivity).
  unfold pins_distinct in P. rewrite forallb_forall in P. specialize (P n Hn).
  rewrite forallb_forall in P. specialize (P m Hm).
  apply String.eqb_neq in Hnm. rewrite Hnm, Dn, Dm, E in P. simpl in P.
  destruct (value_of h m) as [v|]; simpl in P.
  - rewrite (proj2 (value_eqb_eq v v) eq_refl) in P. discriminate.
  - discriminate.
Qed.

Lemma X6_pins_distinct_witness :
  value_of task2_config "LED_RED" <> value_of task2_config "OLED_SDA".
Proof.
  apply (X6_pins_distinct task2_config "LED_RED" "OLED_SDA").
  - unfold headers. apply in_or_app. left. simpl. auto.
  - simpl. auto 12.
  - simpl. auto 12.
  - discriminate.
  - vm_compute. reflexivity.
  - vm_compute. reflexivity.
Defined.

(** X7: each header takes its guard from its file name: the guard is the
    name of the file in upper case with an underscore for the dot.  This
    is why the four files called [config.h] share one guard. *)
Theorem X7_guard_follows_file_name (h : header) :
  In h headers -> guard_name h = Some (guard_for (path h)).
Proof. intro Hh. by_header Hh; vm_compute; reflexivity. Qed.

Lemma X7_guard_follows_file_name_witness :
  guard_name oled_driver = Some (guard_for (path oled_driver)).
Proof.
  apply (X7_guard_follows_file_name oled_driver).
  unfold headers. apply in_or_app. right. simpl. auto.
Defined.

(** X8: the WiFi credentials go in pairs: two configuration headers with
    the same network name have the same passphrase. *)
Theorem X8_same_network_same_passphrase (h k : header) :
  In h config_headers -> In k config_headers ->
  value_of h "WIFI_SSID" = value_of k "WIFI_SSID" ->
  value_of h "WIFI_PASSWORD" = value_of k "WIFI_PASSWORD".
Proof.
  simpl. intros [<-|[<-|[<-|[<-|[]]]]] [<-|[<-|[<-|[<-|[]]]]] E;
    vm_compute in E; try discriminate E; vm_compute; reflexivity.
Qed.

Lemma X8_same_network_same_passphrase_witness :
  value_of task3_config "WIFI_PASSWORD" = value_of task4_config "WIFI_PASSWORD".
Proof.
  apply (X8_same_network_same_passphrase task3_config task4_config).
  - simpl. auto.
  - simpl. auto.
  - vm_compute. reflexivity.
Defined.

(** X9: in each header the include guard is the one macro that stands for
    no value: a name the header defines has no value exactly when it is
    the header's guard. *)
Theorem X9_only_guard_valueless (h : header) (n : string) :
  In h headers -> defined_in h n = true ->
  (value_of h n = None <-> guard_name h = Some n).
Proof.
  intros Hh Hd. apply defined_in_In in Hd.
  by_header Hh; vm_compute in Hd;
    repeat (destruct Hd as [<-|Hd]); try contradiction;
    split; intro E; vm_compute in E; try discriminate E; vm_compute; reflexivity.
Qed.

Lemma X9_only_guard_valueless_witness :
  value_of task2_config "CONFIG_H" = None <-> guard_name task2_config = Some "CONFIG_H".
Proof.
  apply (X9_only_guard_valueless task2_config "CONFIG_H").
  - unfold headers. apply in_or_app. left. simpl. auto.
  - vm_compute. reflexivity.
Defined.

(** X10: no header of the repository depends on another.  The
    configuration headers include nothing, and what [oled_driver.h]
    includes it names in angle brackets: library headers, none of the
    files here. *)
Theorem X10_no_local_include (h : header) (target : string) :
  In h headers -> In (LInclude target) (scan h) ->
  h = oled_driver /\ prefix "<" target = true.
Proof.
  intros Hh Hin.
  by_header Hh; vm_compute in Hin;
    repeat (destruct Hin as [E|Hin]; [try discriminate E|]);
    try contradiction; injection E as <-; split; reflexivity.
Qed.

Lemma X10_no_local_include_witness :
  oled_driver = oled_driver /\ prefix "<" "<Adafruit_GFX.h>" = true.
Proof.
  apply (X10_no_local_include oled_driver "<Adafruit_GFX.h>").
  - unfold headers. apply in_or_app. right. simpl. auto.
  - vm_compute. pick.
Defined.

(** ** The program around a header *)



Lemma headers_closed (h : header) : In h headers -> closed h = true.
Proof. intro Hh. by_header Hh; vm_compute; reflexivity. Qed.





Lemma constant_lineb_sound (h : header) (l : line) :
  constant_lineb h l = true ->
  (l = LBlank \/ l = LComment \/ is_directive l) /\
  (forall n, l = LIfndef n -> guard_name h = Some n) /\
  (forall n b, l = LDefine n b ->
     (b = EmptyString /\ guard_name h = Some n) \/ exists v, literal b = Some v).
Proof.
  intro H. split; [|split].
  - apply lineb_sound. now destruct l.
  - intros n ->. cbn [constant_lineb] in H.
    destruct (guard_name h) as [g'|]; simpl in H; [|discriminate].
    apply String.eqb_eq in H. now subst.
  - intros n c ->. cbn [constant_lineb] in H. apply orb_prop in H as [H|H].
    + left. apply andb_prop in H as [Hb Hg].
      apply String.eqb_eq in Hb.
      destruct (guard_name h) as [g'|]; simpl in Hg; [|discriminate].
      apply String.eqb_eq in Hg. now subst.
    + right. unfold is_literal in H.
      destruct (literal c) as [v|]; [now exists v | discriminate].
Qed.

(** ** Nothing but constants *)

Lemma constant_lines (h : header) :
  In h headers -> forallb (constant_lineb h) (scan h) = true.
Proof. intro Hh. by_header Hh; vm_compute; reflexivity. Qed.

(** C6: no header holds executable code.  Every line of every file is
    blank, a comment, or one of the directives [#ifndef], [#define] of an
    object-like macro, [#include] and [#endif], and these are directives
    of constants only: the one conditional is the include guard, and every
    [#define] is either the guard, with no replacement text, or a
    constant, whose replacement text is a single literal, so that no
    macro stands for a statement, a function, a class or any other code.
    The scanner accounts for each line of text and no comment is left
    open at the end. *)
Theorem C6_only_directives (h : header) (l : line) :
  In h headers -> In l (scan h) ->
  (l = LBlank \/ l = LComment \/ is_directive l) /\
  (forall n, l = LIfndef n -> guard_name h = Some n) /\
  (forall n b, l = LDefine n b ->
     (b = EmptyString /\ guard_name h = Some n) \/ exists v, literal b = Some v) /\
  List.length (scan h) = List.length (text h) /\ closed h = true.
Proof.
  intros Hh Hl.
  pose proof (constant_lines h Hh) as A. rewrite forallb_forall in A.
  destruct (constant_lineb_sound h l (A l Hl)) as (K & G & D).
  repeat split; try assumption.
  - apply scan_length.
  - now apply headers_closed.
Qed.

Lemma C6_only_directives_witness :
  (LDefine "OLED_RESET" "-1" = LBlank \/ LDefine "OLED_RESET" "-1" = LComment \/
   is_directive (LDefine "OLED_RESET" "-1")) /\
  (forall n, LDefine "OLED_RESET" "-1" = LIfndef n -> guard_name oled_driver = Some n) /\
  (forall n b, LDefine "OLED_RESET" "-1" = LDefine n b ->
     (b = EmptyString /\ guard_name oled_driver = Some n) \/
     exists v, literal b = Some v) /\
  List.length (scan oled_driver) = List.length (text oled_driver) /\
  closed oled_driver = true.
Proof.
  apply (C6_only_directives oled_driver (LDefine "OLED_RESET" "-1")).
  - unfold headers. apply in_or_app. right. simpl. auto.
  - vm_compute. pick.
Defined.

(** ** Values are fixed for the whole program *)



(** A program after the Task 3 header that tries to assign to a constant
    and to shadow it: the macro table is as the header left it. *)
Example program_cannot_rebind :
  lookup "LED_RED"
    (macros (run (pp_init [("ARDUINO", "10819")])
       (scan (with_program task3_config
                ["void setup() {"; "  LED_RED = 5;"; "  int MQTT_PORT;";
                 "  /* #define LED_RED 7"; "#define LED_RED 9 */"; "}"]))))
  = Some "18".
Proof. vm_compute. reflexivity. Qed.
